(** * The USB descriptor table of the PIC tools programmer

    A shallow embedding of [programmer/descriptors.c]: the twelve static
    descriptor objects of the CDC-ACM function and the NULL-terminated
    pointer array [usb_device_descriptors] that the USB device stack walks
    during enumeration.

    The file holds data only.  Integers are [Z] with the conversion to the
    member's width written out ([u8], [u16]); a struct is a record; the
    objects the pointer array refers to are values of a tagged union; the
    array itself is a list of optional entries, [None] being NULL. *)

From Stdlib Require Import ZArith List Lia String.
From stdpp Require Import base option list gmap.

Local Open Scope Z_scope.

(** ** C integer types and struct declarations *)

Inductive ctype := uint8_t | uint16_t.

Definition sizeof_ctype (t : ctype) : Z :=
  match t with
  | uint8_t => 1
  | uint16_t => 2
  end.

(** Conversion of an initialiser to an unsigned member of 8 or 16 bits. *)
Definition u8 (v : Z) : Z := v mod 2 ^ 8.
Definition u16 (v : Z) : Z := v mod 2 ^ 16.

Record member := Member { m_name : string; m_type : ctype }.

Definition struct_decl := list member.

(** [sizeof] of a struct whose members are laid out back to back. *)
Definition sizeof (s : struct_decl) : Z :=
  foldr (fun m acc => sizeof_ctype (m_type m) + acc) 0 s.

(** The bytes of one member as they lie in the memory of the little-endian
    target and go over the wire: least significant byte first. *)
Definition encode_member (t : ctype) (v : Z) : list Z :=
  match t with
  | uint8_t => [v mod 256]
  | uint16_t => [v mod 256; (v / 256) mod 256]
  end.

(** The memory image of a struct object: for every declared member, in
    declaration order, the bytes of its value. *)
Fixpoint encode_struct (decl : struct_decl) (vals : list Z) : list Z :=
  match decl, vals with
  | m :: decl', v :: vals' => encode_member (m_type m) v ++ encode_struct decl' vals'
  | _, _ => []
  end.

(** ** The macros of simba.h *)

(** Modelled from the spec: the macro is defined in [simba.h], which is not
    among the sources.  The spec gives the configuration descriptor the
    type 2 (section 8, "type=2"). *)
Definition DESCRIPTOR_TYPE_CONFIGURATION : Z := 2.

(** Modelled from the spec: the macro is defined in [simba.h].  The spec
    gives the miscellaneous device class the code 0xEF (section 6). *)
Definition USB_CLASS_MISCELLANEOUS : Z := 0xEF.

(** The remaining macros of [simba.h] that the table uses.  Neither the
    source nor the spec states their values, so the table is a function of
    them. *)
Class simba_h := {
  DESCRIPTOR_TYPE_DEVICE : Z;
  DESCRIPTOR_TYPE_INTERFACE_ASSOCIATION : Z;
  DESCRIPTOR_TYPE_INTERFACE : Z;
  DESCRIPTOR_TYPE_CDC : Z;
  DESCRIPTOR_TYPE_ENDPOINT : Z;
  USB_CLASS_CDC_CONTROL : Z;
  USB_CLASS_CDC_DATA : Z;
  CONFIG_USB_DEVICE_VID : Z;
  CONFIG_USB_DEVICE_PID : Z;
  CONFIGURATION_ATTRIBUTES_BUS_POWERED : Z;
  ENDPOINT_ATTRIBUTES_TRANSFER_TYPE_INTERRUPT : Z;
  ENDPOINT_ATTRIBUTES_TRANSFER_TYPE_BULK : Z
}.

(** One choice of values on which the definitions below can be run: the
    descriptor types, class codes and attribute bits as USB 2.0 and CDC 1.1
    number them, and a vendor and product id picked for the example. *)
Definition usb20_macros : simba_h := {|
  DESCRIPTOR_TYPE_DEVICE := 1;
  DESCRIPTOR_TYPE_INTERFACE_ASSOCIATION := 11;
  DESCRIPTOR_TYPE_INTERFACE := 4;
  DESCRIPTOR_TYPE_CDC := 0x24;
  DESCRIPTOR_TYPE_ENDPOINT := 5;
  USB_CLASS_CDC_CONTROL := 2;
  USB_CLASS_CDC_DATA := 0x0A;
  CONFIG_USB_DEVICE_VID := 0x04D8;
  CONFIG_USB_DEVICE_PID := 0x000A;
  CONFIGURATION_ATTRIBUTES_BUS_POWERED := 0x80;
  ENDPOINT_ATTRIBUTES_TRANSFER_TYPE_INTERRUPT := 3;
  ENDPOINT_ATTRIBUTES_TRANSFER_TYPE_BULK := 2
|}.

(** ** The struct types of simba.h

    One module per struct: the record of its members, under the member names
    the initialisers of [descriptors.c] use and in their order, the
    declaration with the members' widths, and the member values in
    declaration order. *)

Module Device.
Record usb_descriptor_device_t := {
  length : Z;
  descriptor_type : Z;
  bcd_usb : Z;
  device_class : Z;
  device_subclass : Z;
  device_protocol : Z;
  max_packet_size_0 : Z;
  id_vendor : Z;
  id_product : Z;
  bcd_device : Z;
  manufacturer : Z;
  product : Z;
  serial_number : Z;
  num_configurations : Z
}.

(** Modelled from the spec: the declaration of [struct
    usb_descriptor_device_t] is in [simba.h], not among the sources.  The
    spec asks for "the exact binary layout required by the USB
    specification": the USB release, the vendor and product ids and the
    device release are 16 bits wide, every other member is one byte. *)
Definition decl : struct_decl :=
  [ Member "length" uint8_t; Member "descriptor_type" uint8_t;
    Member "bcd_usb" uint16_t; Member "device_class" uint8_t;
    Member "device_subclass" uint8_t; Member "device_protocol" uint8_t;
    Member "max_packet_size_0" uint8_t; Member "id_vendor" uint16_t;
    Member "id_product" uint16_t; Member "bcd_device" uint16_t;
    Member "manufacturer" uint8_t; Member "product" uint8_t;
    Member "serial_number" uint8_t; Member "num_configurations" uint8_t ].

Definition members (d : usb_descriptor_device_t) : list Z :=
  [ length d; descriptor_type d; bcd_usb d; device_class d;
    device_subclass d; device_protocol d; max_packet_size_0 d; id_vendor d;
    id_product d; bcd_device d; manufacturer d; product d; serial_number d;
    num_configurations d ].
End Device.

Module Configuration.
Record usb_descriptor_configuration_t := {
  length : Z;
  descriptor_type : Z;
  total_length : Z;
  num_interfaces : Z;
  configuration_value : Z;
  configuration : Z;
  configuration_attributes : Z;
  max_power : Z
}.

(** Modelled from the spec: the declaration is in [simba.h].  The spec
    gives the record 9 bytes and names the total length [wTotalLength], a
    16-bit word; the other seven members are one byte each. *)
Definition decl : struct_decl :=
  [ Member "length" uint8_t; Member "descriptor_type" uint8_t;
    Member "total_length" uint16_t; Member "num_interfaces" uint8_t;
    Member "configuration_value" uint8_t; Member "configuration" uint8_t;
    Member "configuration_attributes" uint8_t; Member "max_power" uint8_t ].

Definition members (d : usb_descriptor_configuration_t) : list Z :=
  [ length d; descriptor_type d; total_length d; num_interfaces d;
    configuration_value d; configuration d; configuration_attributes d;
    max_power d ].
End Configuration.

Module InterfaceAssociation.
Record usb_descriptor_interface_association_t := {
  length : Z;
  descriptor_type : Z;
  first_interface : Z;
  interface_count : Z;
  function_class : Z;
  function_subclass : Z;
  function_protocol : Z;
  function : Z
}.

(** Modelled from the spec: the declaration is in [simba.h].  The spec
    gives the record 8 bytes, one for each of its eight members. *)
Definition decl : struct_decl :=
  [ Member "length" uint8_t; Member "descriptor_type" uint8_t;
    Member "first_interface" uint8_t; Member "interface_count" uint8_t;
    Member "function_class" uint8_t; Member "function_subclass" uint8_t;
    Member "function_protocol" uint8_t; Member "function" uint8_t ].

Definition members (d : usb_descriptor_interface_association_t) : list Z :=
  [ length d; descriptor_type d; first_interface d; interface_count d;
    function_class d; function_subclass d; function_protocol d; function d ].
End InterfaceAssociation.

Module Interface.
Record usb_descriptor_interface_t := {
  length : Z;
  descriptor_type : Z;
  interface_number : Z;
  alternate_setting : Z;
  num_endpoints : Z;
  interface_class : Z;
  interface_subclass : Z;
  interface_protocol : Z;
  interface : Z
}.

(** Modelled from the spec: the declaration is in [simba.h].  The spec
    gives the record 9 bytes, one for each of its nine members. *)
Definition decl : struct_decl :=
  [ Member "length" uint8_t; Member "descriptor_type" uint8_t;
    Member "interface_number" uint8_t; Member "alternate_setting" uint8_t;
    Member "num_endpoints" uint8_t; Member "interface_class" uint8_t;
    Member "interface_subclass" uint8_t; Member "interface_protocol" uint8_t;
    Member "interface" uint8_t ].

Definition members (d : usb_descriptor_interface_t) : list Z :=
  [ length d; descriptor_type d; interface_number d; alternate_setting d;
    num_endpoints d; interface_class d; interface_subclass d;
    interface_protocol d; interface d ].
End Interface.

Module CdcHeader.
Record usb_descriptor_cdc_header_t := {
  length : Z;
  descriptor_type : Z;
  sub_type : Z;
  bcd : Z
}.

(** Modelled from the spec: the declaration is in [simba.h].  The spec
    gives the record 5 bytes and names the release number [bcdCDC], a
    16-bit value; the other three members are one byte each. *)
Definition decl : struct_decl :=
  [ Member "length" uint8_t; Member "descriptor_type" uint8_t;
    Member "sub_type" uint8_t; Member "bcd" uint16_t ].

Definition members (d : usb_descriptor_cdc_header_t) : list Z :=
  [ length d; descriptor_type d; sub_type d; bcd d ].
End CdcHeader.

Module CdcAcm.
Record usb_descriptor_cdc_acm_t := {
  length : Z;
  descriptor_type : Z;
  sub_type : Z;
  capabilities : Z
}.

(** Modelled from the spec: the declaration is in [simba.h].  The spec
    gives the record 4 bytes, one for each of its four members. *)
Definition decl : struct_decl :=
  [ Member "length" uint8_t; Member "descriptor_type" uint8_t;
    Member "sub_type" uint8_t; Member "capabilities" uint8_t ].

Definition members (d : usb_descriptor_cdc_acm_t) : list Z :=
  [ length d; descriptor_type d; sub_type d; capabilities d ].
End CdcAcm.

Module CdcUnion.
Record usb_descriptor_cdc_union_t := {
  length : Z;
  descriptor_type : Z;
  sub_type : Z;
  master_interface : Z;
  slave_interface : Z
}.

(** Modelled from the spec: the declaration is in [simba.h].  The spec
    gives the record 5 bytes, one for each of its five members. *)
Definition decl : struct_decl :=
  [ Member "length" uint8_t; Member "descriptor_type" uint8_t;
    Member "sub_type" uint8_t; Member "master_interface" uint8_t;
    Member "slave_interface" uint8_t ].

Definition members (d : usb_descriptor_cdc_union_t) : list Z :=
  [ length d; descriptor_type d; sub_type d; master_interface d;
    slave_interface d ].
End CdcUnion.

Module CdcCallManagement.
Record usb_descriptor_cdc_call_management_t := {
  length : Z;
  descriptor_type : Z;
  sub_type : Z;
  capabilities : Z;
  data_interface : Z
}.

(** Modelled from the spec: the declaration is in [simba.h].  The spec
    gives the record 5 bytes, one for each of its five members. *)
Definition decl : struct_decl :=
  [ Member "length" uint8_t; Member "descriptor_type" uint8_t;
    Member "sub_type" uint8_t; Member "capabilities" uint8_t;
    Member "data_interface" uint8_t ].

Definition members (d : usb_descriptor_cdc_call_management_t) : list Z :=
  [ length d; descriptor_type d; sub_type d; capabilities d;
    data_interface d ].
End CdcCallManagement.

Module Endpoint.
Record usb_descriptor_endpoint_t := {
  length : Z;
  descriptor_type : Z;
  endpoint_address : Z;
  attributes : Z;
  max_packet_size : Z;
  interval : Z
}.

(** Modelled from the spec: the declaration is in [simba.h].  The spec
    gives the record 7 bytes and names the packet size [wMaxPacketSize], a
    16-bit word; the other five members are one byte each. *)
Definition decl : struct_decl :=
  [ Member "length" uint8_t; Member "descriptor_type" uint8_t;
    Member "endpoint_address" uint8_t; Member "attributes" uint8_t;
    Member "max_packet_size" uint16_t; Member "interval" uint8_t ].

Definition members (d : usb_descriptor_endpoint_t) : list Z :=
  [ length d; descriptor_type d; endpoint_address d; attributes d;
    max_packet_size d; interval d ].
End Endpoint.

(** ** The union the pointer array refers to

    Every entry of [usb_device_descriptors] is the address of one of the
    static objects of the file, cast to a pointer to [union
    usb_descriptor_t]; the object's struct type is the variant.  The objects
    are [const] and never written, so an entry is modelled by the object
    itself. *)
Inductive usb_descriptor_t :=
| device (d : Device.usb_descriptor_device_t)
| configuration (d : Configuration.usb_descriptor_configuration_t)
| interface_association (d : InterfaceAssociation.usb_descriptor_interface_association_t)
| interface (d : Interface.usb_descriptor_interface_t)
| cdc_header (d : CdcHeader.usb_descriptor_cdc_header_t)
| cdc_acm (d : CdcAcm.usb_descriptor_cdc_acm_t)
| cdc_union (d : CdcUnion.usb_descriptor_cdc_union_t)
| cdc_call_management (d : CdcCallManagement.usb_descriptor_cdc_call_management_t)
| endpoint (d : Endpoint.usb_descriptor_endpoint_t).

(** The struct declaration behind an entry. *)
Definition decl_of (d : usb_descriptor_t) : struct_decl :=
  match d with
  | device _ => Device.decl
  | configuration _ => Configuration.decl
  | interface_association _ => InterfaceAssociation.decl
  | interface _ => Interface.decl
  | cdc_header _ => CdcHeader.decl
  | cdc_acm _ => CdcAcm.decl
  | cdc_union _ => CdcUnion.decl
  | cdc_call_management _ => CdcCallManagement.decl
  | endpoint _ => Endpoint.decl
  end.

Definition members_of (d : usb_descriptor_t) : list Z :=
  match d with
  | device x => Device.members x
  | configuration x => Configuration.members x
  | interface_association x => InterfaceAssociation.members x
  | interface x => Interface.members x
  | cdc_header x => CdcHeader.members x
  | cdc_acm x => CdcAcm.members x
  | cdc_union x => CdcUnion.members x
  | cdc_call_management x => CdcCallManagement.members x
  | endpoint x => Endpoint.members x
  end.

(** The two members every struct starts with, read through the union. *)
Definition header_length (d : usb_descriptor_t) : Z :=
  match d with
  | device x => Device.length x
  | configuration x => Configuration.length x
  | interface_association x => InterfaceAssociation.length x
  | interface x => Interface.length x
  | cdc_header x => CdcHeader.length x
  | cdc_acm x => CdcAcm.length x
  | cdc_union x => CdcUnion.length x
  | cdc_call_management x => CdcCallManagement.length x
  | endpoint x => Endpoint.length x
  end.

Definition header_descriptor_type (d : usb_descriptor_t) : Z :=
  match d with
  | device x => Device.descriptor_type x
  | configuration x => Configuration.descriptor_type x
  | interface_association x => InterfaceAssociation.descriptor_type x
  | interface x => Interface.descriptor_type x
  | cdc_header x => CdcHeader.descriptor_type x
  | cdc_acm x => CdcAcm.descriptor_type x
  | cdc_union x => CdcUnion.descriptor_type x
  | cdc_call_management x => CdcCallManagement.descriptor_type x
  | endpoint x => Endpoint.descriptor_type x
  end.

(** The bytes of an entry: the memory image of the object it points to. *)
Definition encode (d : usb_descriptor_t) : list Z :=
  encode_struct (decl_of d) (members_of d).

(** ** Reading the table

    What a consumer of the table does with it; none of this is code of
    [descriptors.c], it is the vocabulary the properties below are stated
    in. *)

(** The walk over a NULL-terminated pointer array: the entries before the
    first NULL.  An array without a NULL gives [None]: the C loop would read
    past its end. *)
Fixpoint traverse (descs : list (option usb_descriptor_t)) : option (list usb_descriptor_t) :=
  match descs with
  | [] => None
  | None :: _ => Some []
  | Some d :: rest => cons d <$> traverse rest
  end.

(** The same walk as a step of a reader that holds the array and hands it
    back: the array is [const], so the state after the walk is the state
    before it. *)
Definition traverse_st (descs : list (option usb_descriptor_t))
  : list (option usb_descriptor_t) * option (list usb_descriptor_t) :=
  (descs, traverse descs).

Definition is_device (d : usb_descriptor_t) : bool :=
  match d with device _ => true | _ => false end.

(** The records of the GET_DESCRIPTOR(CONFIGURATION) response: all but the
    device descriptor, in table order. *)
Definition configuration_group (l : list usb_descriptor_t) : list usb_descriptor_t :=
  filter (fun d => is_device d = false) l.

(** Records written one after the other. *)
Definition serialize (l : list usb_descriptor_t) : list Z :=
  concat (map encode l).

(** The number of bytes a record occupies, and a group of records. *)
Definition byte_size (d : usb_descriptor_t) : Z :=
  Z.of_nat (List.length (encode d)).

Definition sum_sizes (l : list usb_descriptor_t) : Z :=
  foldr (fun d acc => byte_size d + acc) 0 l.

(** The interface numbers the interface descriptors of a table declare. *)
Definition interface_numbers (l : list usb_descriptor_t) : list Z :=
  flat_map (fun d => match d with
                     | interface i => [Interface.interface_number i]
                     | _ => []
                     end) l.

(** The interface numbers the class-specific records of a table refer to:
    master and slave of a union, the data interface of call management. *)
Definition referenced_interfaces (l : list usb_descriptor_t) : list Z :=
  flat_map (fun d => match d with
                     | cdc_union u => [CdcUnion.master_interface u; CdcUnion.slave_interface u]
                     | cdc_call_management c => [CdcCallManagement.data_interface c]
                     | _ => []
                     end) l.

Definition endpoint_addresses (l : list usb_descriptor_t) : list Z :=
  flat_map (fun d => match d with
                     | endpoint e => [Endpoint.endpoint_address e]
                     | _ => []
                     end) l.

(** An endpoint address holds the direction in bit 7 (set: IN) and the
    endpoint number in the low four bits, the reading the comments of the
    source give: 0x81 is "EP 1 IN", 0x02 "EP 2 OUT", 0x83 "EP 3 IN". *)
Inductive direction := OUT | IN.

Definition endpoint_direction (a : Z) : direction :=
  if Z.testbit a 7 then IN else OUT.

Definition endpoint_number (a : Z) : Z := Z.land a 0x0F.

(** The endpoint descriptors that belong to an interface descriptor by
    position: those among the records after it, up to the next interface
    descriptor or the end of the table. *)
Fixpoint endpoints_until_interface (l : list usb_descriptor_t) : list Endpoint.usb_descriptor_endpoint_t :=
  match l with
  | [] => []
  | interface _ :: _ => []
  | endpoint e :: rest => e :: endpoints_until_interface rest
  | _ :: rest => endpoints_until_interface rest
  end.

Fixpoint interfaces_with_endpoints (l : list usb_descriptor_t)
  : list (Interface.usb_descriptor_interface_t * list Endpoint.usb_descriptor_endpoint_t) :=
  match l with
  | [] => []
  | interface i :: rest => (i, endpoints_until_interface rest) :: interfaces_with_endpoints rest
  | _ :: rest => interfaces_with_endpoints rest
  end.

(** The string-descriptor indices of a record: the members by which a
    record names a string descriptor for the host to fetch (0: none). *)
Definition string_indices (d : usb_descriptor_t) : list Z :=
  match d with
  | device x => [Device.manufacturer x; Device.product x; Device.serial_number x]
  | configuration x => [Configuration.configuration x]
  | interface_association x => [InterfaceAssociation.function x]
  | interface x => [Interface.interface x]
  | _ => []
  end.

(** The tags of the class-specific (CDC) records of a table: descriptor
    type and sub type. *)
Definition cdc_tags (l : list usb_descriptor_t) : list (Z * Z) :=
  flat_map (fun d => match d with
                     | cdc_header x => [(CdcHeader.descriptor_type x, CdcHeader.sub_type x)]
                     | cdc_acm x => [(CdcAcm.descriptor_type x, CdcAcm.sub_type x)]
                     | cdc_union x => [(CdcUnion.descriptor_type x, CdcUnion.sub_type x)]
                     | cdc_call_management x =>
                         [(CdcCallManagement.descriptor_type x, CdcCallManagement.sub_type x)]
                     | _ => []
                     end) l.

(** The sub type of a class-specific (CDC) record; other records have
    none. *)
Definition cdc_sub_type (d : usb_descriptor_t) : option Z :=
  match d with
  | cdc_header x => Some (CdcHeader.sub_type x)
  | cdc_acm x => Some (CdcAcm.sub_type x)
  | cdc_union x => Some (CdcUnion.sub_type x)
  | cdc_call_management x => Some (CdcCallManagement.sub_type x)
  | _ => None
  end.

(** The CDC records of a table that carry a given sub type. *)
Definition cdc_with_sub_type (s : Z) (l : list usb_descriptor_t) : list usb_descriptor_t :=
  filter (fun d => cdc_sub_type d = Some s) l.

(** A release number in binary-coded decimal, 0xJJMN: the high byte holds
    the major number, the low byte the minor one, a decimal digit per
    nibble.  In this notation the source's [bcd_usb = 0x0200] is USB
    release 2.00 and its [bcd_device = 0x0100] device release 1.00. *)
Definition bcd_byte (n : Z) : Z := 16 * (n / 10) + n mod 10.

Definition bcd_release (major minor : Z) : Z := 256 * bcd_byte major + bcd_byte minor.

Definition bcd_byte_value (b : Z) : Z := 10 * (b / 16) + b mod 16.

Definition bcd_major (v : Z) : Z := bcd_byte_value (v / 256).
Definition bcd_minor (v : Z) : Z := bcd_byte_value (v mod 256).

(** The configuration descriptors of a table. *)
Definition configurations (l : list usb_descriptor_t)
  : list Configuration.usb_descriptor_configuration_t :=
  flat_map (fun d => match d with
                     | configuration c => [c]
                     | _ => []
                     end) l.

(** Every record of a table with the interface descriptor it stands under:
    the last interface descriptor at or before it in table order, none for
    a record that comes before the first interface descriptor. *)
Fixpoint with_interface (cur : option Interface.usb_descriptor_interface_t)
    (l : list usb_descriptor_t)
  : list (option Interface.usb_descriptor_interface_t * usb_descriptor_t) :=
  match l with
  | [] => []
  | interface i :: rest => (Some i, interface i) :: with_interface (Some i) rest
  | d :: rest => (cur, d) :: with_interface cur rest
  end.

(** A 16-bit value read back from its two bytes on the wire. *)
Definition le16 (lo hi : Z) : Z := lo + 256 * hi.

(** A byte stream cut into records by their length bytes alone, the way the
    receiver of a configuration response finds the records in it: the first
    byte of a record is its length.  A record shorter than the two-byte
    header, or longer than what is left of the stream, ends the reading
    with [None].  Every record takes at least two bytes, so fuel equal to
    the length of the stream is enough. *)
Fixpoint split_records (fuel : nat) (bytes : list Z) : option (list (list Z)) :=
  match bytes, fuel with
  | [], _ => Some []
  | _ :: _, O => None
  | len :: _, S fuel' =>
      let n := Z.to_nat len in
      if decide (2 <= n <= List.length bytes)%nat
      then cons (take n bytes) <$> split_records fuel' (drop n bytes)
      else None
  end.

(** ** descriptors.c *)

Section descriptors.

Context {hdr : simba_h}.

(** [.length = sizeof(object)] stores the size of the object's struct type
    in a [uint8_t] member; every other initialiser is converted to its
    member's width in the same way. *)
Definition device_descriptor : Device.usb_descriptor_device_t := {|
  Device.length := u8 (sizeof Device.decl);
  Device.descriptor_type := u8 DESCRIPTOR_TYPE_DEVICE;
  Device.bcd_usb := u16 0x0200;
  Device.device_class := u8 USB_CLASS_MISCELLANEOUS;
  Device.device_subclass := u8 2;
  Device.device_protocol := u8 1;
  Device.max_packet_size_0 := u8 64;
  Device.id_vendor := u16 CONFIG_USB_DEVICE_VID;
  Device.id_product := u16 CONFIG_USB_DEVICE_PID;
  Device.bcd_device := u16 0x0100;
  Device.manufacturer := u8 0;
  Device.product := u8 0;
  Device.serial_number := u8 0;
  Device.num_configurations := u8 1
|}.

Definition configuration_descriptor : Configuration.usb_descriptor_configuration_t := {|
  Configuration.length := u8 (sizeof Configuration.decl);
  Configuration.descriptor_type := u8 DESCRIPTOR_TYPE_CONFIGURATION;
  Configuration.total_length := u16 75;
  Configuration.num_interfaces := u8 2;
  Configuration.configuration_value := u8 1;
  Configuration.configuration := u8 0;
  Configuration.configuration_attributes := u8 CONFIGURATION_ATTRIBUTES_BUS_POWERED;
  Configuration.max_power := u8 250
|}.

Definition inferface_association_0_descriptor
  : InterfaceAssociation.usb_descriptor_interface_association_t := {|
  InterfaceAssociation.length := u8 (sizeof InterfaceAssociation.decl);
  InterfaceAssociation.descriptor_type := u8 DESCRIPTOR_TYPE_INTERFACE_ASSOCIATION;
  InterfaceAssociation.first_interface := u8 0;
  InterfaceAssociation.interface_count := u8 2;
  InterfaceAssociation.function_class := u8 2;
  InterfaceAssociation.function_subclass := u8 2;
  InterfaceAssociation.function_protocol := u8 1;
  InterfaceAssociation.function := u8 0
|}.

Definition inferface_0_descriptor : Interface.usb_descriptor_interface_t := {|
  Interface.length := u8 (sizeof Interface.decl);
  Interface.descriptor_type := u8 DESCRIPTOR_TYPE_INTERFACE;
  Interface.interface_number := u8 0;
  Interface.alternate_setting := u8 0;
  Interface.num_endpoints := u8 1;
  Interface.interface_class := u8 USB_CLASS_CDC_CONTROL;
  Interface.interface_subclass := u8 2;
  Interface.interface_protocol := u8 0;
  Interface.interface := u8 0
|}.

Definition cdc_header_descriptor : CdcHeader.usb_descriptor_cdc_header_t := {|
  CdcHeader.length := u8 (sizeof CdcHeader.decl);
  CdcHeader.descriptor_type := u8 DESCRIPTOR_TYPE_CDC;
  CdcHeader.sub_type := u8 0;
  CdcHeader.bcd := u16 0x1001
|}.

Definition cdc_acm_descriptor : CdcAcm.usb_descriptor_cdc_acm_t := {|
  CdcAcm.length := u8 (sizeof CdcAcm.decl);
  CdcAcm.descriptor_type := u8 DESCRIPTOR_TYPE_CDC;
  CdcAcm.sub_type := u8 2;
  CdcAcm.capabilities := u8 0x06
|}.

Definition cdc_union_0_descriptor : CdcUnion.usb_descriptor_cdc_union_t := {|
  CdcUnion.length := u8 (sizeof CdcUnion.decl);
  CdcUnion.descriptor_type := u8 DESCRIPTOR_TYPE_CDC;
  CdcUnion.sub_type := u8 6;
  CdcUnion.master_interface := u8 0;
  CdcUnion.slave_interface := u8 1
|}.

Definition cdc_call_management_0_descriptor
  : CdcCallManagement.usb_descriptor_cdc_call_management_t := {|
  CdcCallManagement.length := u8 (sizeof CdcCallManagement.decl);
  CdcCallManagement.descriptor_type := u8 DESCRIPTOR_TYPE_CDC;
  CdcCallManagement.sub_type := u8 1;
  CdcCallManagement.capabilities := u8 0x00;
  CdcCallManagement.data_interface := u8 1
|}.

(** EP 1 IN. *)
Definition endpoint_1_descriptor : Endpoint.usb_descriptor_endpoint_t := {|
  Endpoint.length := u8 (sizeof Endpoint.decl);
  Endpoint.descriptor_type := u8 DESCRIPTOR_TYPE_ENDPOINT;
  Endpoint.endpoint_address := u8 0x81;
  Endpoint.attributes := u8 ENDPOINT_ATTRIBUTES_TRANSFER_TYPE_INTERRUPT;
  Endpoint.max_packet_size := u16 16;
  Endpoint.interval := u8 64
|}.

Definition inferface_1_descriptor : Interface.usb_descriptor_interface_t := {|
  Interface.length := u8 (sizeof Interface.decl);
  Interface.descriptor_type := u8 DESCRIPTOR_TYPE_INTERFACE;
  Interface.interface_number := u8 1;
  Interface.alternate_setting := u8 0;
  Interface.num_endpoints := u8 2;
  Interface.interface_class := u8 USB_CLASS_CDC_DATA;
  Interface.interface_subclass := u8 0;
  Interface.interface_protocol := u8 0;
  Interface.interface := u8 0
|}.

(** EP 2 OUT. *)
Definition endpoint_2_descriptor : Endpoint.usb_descriptor_endpoint_t := {|
  Endpoint.length := u8 (sizeof Endpoint.decl);
  Endpoint.descriptor_type := u8 DESCRIPTOR_TYPE_ENDPOINT;
  Endpoint.endpoint_address := u8 0x02;
  Endpoint.attributes := u8 ENDPOINT_ATTRIBUTES_TRANSFER_TYPE_BULK;
  Endpoint.max_packet_size := u16 512;
  Endpoint.interval := u8 128
|}.

(** EP 3 IN. *)
Definition endpoint_3_descriptor : Endpoint.usb_descriptor_endpoint_t := {|
  Endpoint.length := u8 (sizeof Endpoint.decl);
  Endpoint.descriptor_type := u8 DESCRIPTOR_TYPE_ENDPOINT;
  Endpoint.endpoint_address := u8 0x83;
  Endpoint.attributes := u8 ENDPOINT_ATTRIBUTES_TRANSFER_TYPE_BULK;
  Endpoint.max_packet_size := u16 512;
  Endpoint.interval := u8 128
|}.

(** An array of all USB device descriptors. *)
Definition usb_device_descriptors : list (option usb_descriptor_t) :=
  [ Some (device device_descriptor);
    Some (configuration configuration_descriptor);
    Some (interface_association inferface_association_0_descriptor);
    Some (interface inferface_0_descriptor);
    Some (cdc_header cdc_header_descriptor);
    Some (cdc_acm cdc_acm_descriptor);
    Some (cdc_union cdc_union_0_descriptor);
    Some (cdc_call_management cdc_call_management_0_descriptor);
    Some (endpoint endpoint_1_descriptor);
    Some (interface inferface_1_descriptor);
    Some (endpoint endpoint_2_descriptor);
    Some (endpoint endpoint_3_descriptor);
    None ].

(** ** Struct images *)

Lemma sizeof_cons m (s : struct_decl) :
  sizeof (m :: s) = sizeof_ctype (m_type m) + sizeof s.
Proof. reflexivity. Qed.

Lemma u8_small v : 0 <= v < 256 -> u8 v = v.
Proof. intros Hv. unfold u8. apply Z.mod_small. lia. Qed.

Lemma encode_member_length t v :
  Z.of_nat (List.length (encode_member t v)) = sizeof_ctype t.
Proof. destruct t; reflexivity. Qed.

Lemma encode_member_bytes t v :
  Forall (fun b => 0 <= b < 256) (encode_member t v).
Proof.
  destruct t; simpl; repeat constructor;
    try (apply Z.mod_pos_bound; lia); apply Z.mod_pos_bound; lia.
Qed.

(** An object with one value per declared member occupies [sizeof] bytes. *)
Lemma encode_struct_length (decl : struct_decl) :
  forall vals : list Z,
    List.length vals = List.length decl ->
    Z.of_nat (List.length (encode_struct decl vals)) = sizeof decl.
Proof.
  induction decl as [|m decl IH]; intros [|v vals] Hlen; simpl in Hlen; try discriminate.
  - reflexivity.
  - simpl encode_struct. rewrite length_app, Nat2Z.inj_add, encode_member_length.
    rewrite sizeof_cons, IH by congruence. reflexivity.
Qed.

Lemma encode_struct_bytes (decl : struct_decl) :
  forall vals : list Z, Forall (fun b => 0 <= b < 256) (encode_struct decl vals).
Proof.
  induction decl as [|m decl IH]; intros [|v vals]; simpl; try constructor.
  apply Forall_app. split; [apply encode_member_bytes | apply IH].
Qed.

Lemma members_of_arity d : List.length (members_of d) = List.length (decl_of d).
Proof. destruct d; reflexivity. Qed.

Lemma encode_length d : Z.of_nat (List.length (encode d)) = sizeof (decl_of d).
Proof. unfold encode. apply encode_struct_length, members_of_arity. Qed.

Lemma serialize_cons d l : serialize (d :: l) = encode d ++ serialize l.
Proof. reflexivity. Qed.

(** The length of a byte stream is the sum of the sizes of its records. *)
Lemma serialize_length l :
  Z.of_nat (List.length (serialize l)) = sum_sizes l.
Proof.
  induction l as [|d l IH]; [reflexivity|].
  rewrite serialize_cons, length_app, Nat2Z.inj_add, IH. reflexivity.
Qed.

Lemma byte_size_sizeof d : byte_size d = sizeof (decl_of d).
Proof. apply encode_length. Qed.

Lemma sum_sizes_map l : sum_sizes l = foldr Z.add 0 (map byte_size l).
Proof.
  induction l as [|d l IH]; simpl; [reflexivity|].
  rewrite <- IH. reflexivity.
Qed.

Lemma encode_bytes d : Forall (fun b => 0 <= b < 256) (encode d).
Proof. apply encode_struct_bytes. Qed.

Lemma serialize_bytes l : Forall (fun b => 0 <= b < 256) (serialize l).
Proof.
  induction l as [|d l IH]; [constructor|].
  rewrite serialize_cons. apply Forall_app. split; [apply encode_bytes | exact IH].
Qed.

(** ** The walk over the array *)

(** A walk over an array that holds a NULL ends there, whatever follows. *)
Lemma traverse_terminated (l : list usb_descriptor_t) rest :
  traverse (map Some l ++ None :: rest) = Some l.
Proof.
  induction l as [|d l IH]; simpl; [reflexivity|].
  rewrite IH. reflexivity.
Qed.

(** The entries a walk returns are the array's, in its order, and a NULL
    follows them. *)
Lemma traverse_Some_inv descs :
  forall l, traverse descs = Some l ->
    exists rest, descs = map Some l ++ None :: rest.
Proof.
  induction descs as [|[d|] descs IH]; intros l Hl; simpl in Hl.
  - discriminate.
  - destruct (traverse descs) as [l'|] eqn:E; simpl in Hl; [|discriminate].
    injection Hl as <-. destruct (IH l' eq_refl) as [rest ->].
    exists rest. reflexivity.
  - injection Hl as <-. exists descs. reflexivity.
Qed.

Lemma traverse_usb_device_descriptors :
  traverse usb_device_descriptors =
  Some [ device device_descriptor;
         configuration configuration_descriptor;
         interface_association inferface_association_0_descriptor;
         interface inferface_0_descriptor;
         cdc_header cdc_header_descriptor;
         cdc_acm cdc_acm_descriptor;
         cdc_union cdc_union_0_descriptor;
         cdc_call_management cdc_call_management_0_descriptor;
         endpoint endpoint_1_descriptor;
         interface inferface_1_descriptor;
         endpoint endpoint_2_descriptor;
         endpoint endpoint_3_descriptor ].
Proof. reflexivity. Qed.

(** A length member initialised with [sizeof] holds the number of bytes of
    the object, as long as the struct is shorter than 256 bytes. *)
Lemma length_initialiser_exact (decl : struct_decl) (vals : list Z) :
  List.length vals = List.length decl ->
  sizeof decl < 256 ->
  u8 (sizeof decl) = Z.of_nat (List.length (encode_struct decl vals)).
Proof.
  intros Harity Hsmall. rewrite (encode_struct_length decl vals Harity).
  apply u8_small. split; [|exact Hsmall].
  rewrite <- (encode_struct_length decl vals Harity). apply Nat2Z.is_nonneg.
Qed.

(** Every object of the table is initialised that way, and no struct of
    the file is 256 bytes or longer. *)
Lemma header_length_encoded d :
  Some d ∈ usb_device_descriptors ->
  header_length d = Z.of_nat (List.length (encode d)).
Proof.
  unfold usb_device_descriptors. intros Hd.
  set_unfold in Hd. destruct_or!; simplify_eq;
    (apply length_initialiser_exact; [reflexivity | vm_compute; reflexivity]).
Qed.

(** ** The properties of the table *)

(** C1: the configuration descriptor's total length is the sum of the byte
    sizes of the records sent with it: 9 (configuration) + 8 (interface
    association) + 9 (interface 0) + 5 (CDC header) + 4 (CDC ACM) + 5 (CDC
    union) + 5 (call management) + 7 (endpoint 1) + 9 (interface 1) + 7
    (endpoint 2) + 7 (endpoint 3), which is the declared 75. *)
Theorem total_length_is_sum_of_sizes :
  exists records,
    traverse usb_device_descriptors = Some records /\
    map (fun d => (d, byte_size d)) (configuration_group records) =
      [ (configuration configuration_descriptor, 9);
        (interface_association inferface_association_0_descriptor, 8);
        (interface inferface_0_descriptor, 9);
        (cdc_header cdc_header_descriptor, 5);
        (cdc_acm cdc_acm_descriptor, 4);
        (cdc_union cdc_union_0_descriptor, 5);
        (cdc_call_management cdc_call_management_0_descriptor, 5);
        (endpoint endpoint_1_descriptor, 7);
        (interface inferface_1_descriptor, 9);
        (endpoint endpoint_2_descriptor, 7);
        (endpoint endpoint_3_descriptor, 7) ] /\
    sum_sizes (configuration_group records) = 9 + 8 + 9 + 5 + 4 + 5 + 5 + 7 + 9 + 7 + 7 /\
    Configuration.total_length configuration_descriptor = sum_sizes (configuration_group records) /\
    Configuration.total_length configuration_descriptor = 75.
Proof.
  eexists. split; [apply traverse_usb_device_descriptors|].
  assert (Hsizes : map byte_size
            (configuration_group
               [ device device_descriptor;
                 configuration configuration_descriptor;
                 interface_association inferface_association_0_descriptor;
                 interface inferface_0_descriptor;
                 cdc_header cdc_header_descriptor;
                 cdc_acm cdc_acm_descriptor;
                 cdc_union cdc_union_0_descriptor;
                 cdc_call_management cdc_call_management_0_descriptor;
                 endpoint endpoint_1_descriptor;
                 interface inferface_1_descriptor;
                 endpoint endpoint_2_descriptor;
                 endpoint endpoint_3_descriptor ])
          = [9; 8; 9; 5; 4; 5; 5; 7; 9; 7; 7]).
  { simpl. rewrite !byte_size_sizeof. reflexivity. }
  split.
  - simpl. rewrite !byte_size_sizeof. reflexivity.
  - rewrite sum_sizes_map, Hsizes. repeat split.
Qed.

(** C2: the records other than the device descriptor are, in array order,
    configuration, interface association, interface 0, CDC header, CDC ACM,
    CDC union, CDC call management, endpoint 1, interface 1, endpoint 2 and
    endpoint 3; written one after the other they make 75 bytes, the first
    two of which are 09 02. *)
Theorem configuration_response_stream :
  exists records,
    traverse usb_device_descriptors = Some records /\
    configuration_group records =
      [ configuration configuration_descriptor;
        interface_association inferface_association_0_descriptor;
        interface inferface_0_descriptor;
        cdc_header cdc_header_descriptor;
        cdc_acm cdc_acm_descriptor;
        cdc_union cdc_union_0_descriptor;
        cdc_call_management cdc_call_management_0_descriptor;
        endpoint endpoint_1_descriptor;
        interface inferface_1_descriptor;
        endpoint endpoint_2_descriptor;
        endpoint endpoint_3_descriptor ] /\
    List.length (serialize (configuration_group records)) = 75%nat /\
    take 2 (serialize (configuration_group records)) = [0x09; 0x02] /\
    Forall (fun b => 0 <= b < 256) (serialize (configuration_group records)).
Proof.
  eexists. split; [apply traverse_usb_device_descriptors|].
  split; [reflexivity|].
  split; [|split].
  - apply Nat2Z.inj. rewrite serialize_length, sum_sizes_map.
    simpl. rewrite !byte_size_sizeof. reflexivity.
  - reflexivity.
  - apply serialize_bytes.
Qed.

(** C3: for every record the pointer array refers to, the length member
    equals the number of bytes of the record's encoding. *)
Theorem length_member_is_encoded_size (d : usb_descriptor_t) :
  Some d ∈ usb_device_descriptors ->
  Z.of_nat (List.length (encode d)) = header_length d.
Proof.
  intros Hd. symmetry. apply header_length_encoded, Hd.
Qed.

(** C4: the release number of the CDC header.  The member holds 0x1001,
    which reads as release 10.01 and goes over the wire as 01 10; release
    1.10 is 0x0110, on the wire 10 01.  The two release numbers of the
    device descriptor are written high byte first: 2.00 as 0x0200, 1.00 as
    0x0100. *)
Theorem cdc_header_bcd_reads_10_01 :
  CdcHeader.bcd cdc_header_descriptor = 0x1001 /\
  bcd_major (CdcHeader.bcd cdc_header_descriptor) = 10 /\
  bcd_minor (CdcHeader.bcd cdc_header_descriptor) = 1 /\
  bcd_release 1 10 = 0x0110 /\
  CdcHeader.bcd cdc_header_descriptor <> bcd_release 1 10 /\
  encode_member uint16_t (CdcHeader.bcd cdc_header_descriptor) = [0x01; 0x10] /\
  encode_member uint16_t (bcd_release 1 10) = [0x10; 0x01] /\
  Device.bcd_usb device_descriptor = bcd_release 2 0 /\
  Device.bcd_device device_descriptor = bcd_release 1 0.
Proof. repeat split; try reflexivity. discriminate. Qed.

(** C5: the interface numbers the union (master 0, slave 1) and the call
    management record (data interface 1) refer to are interface numbers of
    interface descriptors of the table: the master is the number of the
    control interface, the slave and the data interface that of the data
    interface. *)
Theorem cdc_interface_references_resolve :
  exists records,
    traverse usb_device_descriptors = Some records /\
    interface_numbers records =
      [ Interface.interface_number inferface_0_descriptor;
        Interface.interface_number inferface_1_descriptor ] /\
    referenced_interfaces records =
      [ CdcUnion.master_interface cdc_union_0_descriptor;
        CdcUnion.slave_interface cdc_union_0_descriptor;
        CdcCallManagement.data_interface cdc_call_management_0_descriptor ] /\
    Forall (fun n => n ∈ interface_numbers records) (referenced_interfaces records) /\
    CdcUnion.master_interface cdc_union_0_descriptor = 0 /\
    CdcUnion.slave_interface cdc_union_0_descriptor = 1 /\
    CdcCallManagement.data_interface cdc_call_management_0_descriptor = 1 /\
    Interface.interface_number inferface_0_descriptor = 0 /\
    Interface.interface_number inferface_1_descriptor = 1 /\
    Interface.interface_class inferface_0_descriptor = u8 USB_CLASS_CDC_CONTROL /\
    Interface.interface_class inferface_1_descriptor = u8 USB_CLASS_CDC_DATA.
Proof.
  eexists. split; [apply traverse_usb_device_descriptors|].
  split; [reflexivity|]. split; [reflexivity|].
  split; [|repeat split].
  repeat constructor.
Qed.

(** C6: the endpoint addresses of the table are 0x81, 0x02 and 0x83, and
    no two endpoint descriptors agree in endpoint number and direction. *)
Theorem endpoint_addresses_unique :
  exists records,
    traverse usb_device_descriptors = Some records /\
    endpoint_addresses records = [0x81; 0x02; 0x83] /\
    list_to_set (endpoint_addresses records) = ({[ 0x81; 0x02; 0x83 ]} : gset Z) /\
    map (fun a => (endpoint_number a, endpoint_direction a)) (endpoint_addresses records)
      = [(1, IN); (2, OUT); (3, IN)] /\
    NoDup (map (fun a => (endpoint_number a, endpoint_direction a)) (endpoint_addresses records)).
Proof.
  eexists. split; [apply traverse_usb_device_descriptors|].
  assert (Haddr : endpoint_addresses
            [ device device_descriptor; configuration configuration_descriptor;
              interface_association inferface_association_0_descriptor;
              interface inferface_0_descriptor; cdc_header cdc_header_descriptor;
              cdc_acm cdc_acm_descriptor; cdc_union cdc_union_0_descriptor;
              cdc_call_management cdc_call_management_0_descriptor;
              endpoint endpoint_1_descriptor; interface inferface_1_descriptor;
              endpoint endpoint_2_descriptor; endpoint endpoint_3_descriptor ]
            = [0x81; 0x02; 0x83]) by reflexivity.
  rewrite Haddr. split; [reflexivity|]. split; [|split].
  - simpl. set_solver.
  - reflexivity.
  - change (NoDup [(1, IN); (2, OUT); (3, IN)]).
    repeat (apply NoDup_cons; split; [set_unfold; intuition congruence|]).
    apply NoDup_nil_2.
Qed.

(** C7: each interface descriptor's endpoint count is the number of
    endpoint descriptors between it and the next interface descriptor or
    the end of the table: interface 0 declares one and is followed by the
    interrupt endpoint, interface 1 declares two and is followed by the
    bulk OUT and the bulk IN endpoint. *)
Theorem num_endpoints_counts_following_endpoints :
  exists records,
    traverse usb_device_descriptors = Some records /\
    interfaces_with_endpoints records =
      [ (inferface_0_descriptor, [endpoint_1_descriptor]);
        (inferface_1_descriptor, [endpoint_2_descriptor; endpoint_3_descriptor]) ] /\
    Forall (fun ie => Interface.num_endpoints ie.1 = Z.of_nat (List.length ie.2))
           (interfaces_with_endpoints records) /\
    Interface.num_endpoints inferface_0_descriptor = 1 /\
    Interface.num_endpoints inferface_1_descriptor = 2 /\
    Endpoint.attributes endpoint_1_descriptor = u8 ENDPOINT_ATTRIBUTES_TRANSFER_TYPE_INTERRUPT /\
    Endpoint.attributes endpoint_2_descriptor = u8 ENDPOINT_ATTRIBUTES_TRANSFER_TYPE_BULK /\
    endpoint_direction (Endpoint.endpoint_address endpoint_2_descriptor) = OUT /\
    Endpoint.attributes endpoint_3_descriptor = u8 ENDPOINT_ATTRIBUTES_TRANSFER_TYPE_BULK /\
    endpoint_direction (Endpoint.endpoint_address endpoint_3_descriptor) = IN.
Proof.
  eexists. split; [apply traverse_usb_device_descriptors|].
  split; [reflexivity|]. split; [|repeat split].
  cbn [interfaces_with_endpoints endpoints_until_interface].
  repeat constructor.
Qed.

(** C8: a walk over the pointer array from its start meets twelve non-null
    entries and then the NULL that ends it; a second walk over the array the
    first one leaves behind returns the same sequence. *)
Theorem traversal_twelve_then_null :
  exists records,
    traverse usb_device_descriptors = Some records /\
    List.length records = 12%nat /\
    take 12 usb_device_descriptors = map Some records /\
    usb_device_descriptors !! 12%nat = Some None /\
    List.length usb_device_descriptors = 13%nat /\
    (let (after_first, first) := traverse_st usb_device_descriptors in
     let (after_second, second) := traverse_st after_first in
     first = Some records /\ second = first /\ after_second = usb_device_descriptors).
Proof.
  eexists. split; [apply traverse_usb_device_descriptors|].
  unfold traverse_st. rewrite traverse_usb_device_descriptors.
  repeat split.
Qed.

(** C9: the device descriptor's manufacturer, product and serial number
    indices are 0 and its device release is 0x0100; no record of the table
    names a string descriptor, and every record carries one of the six
    descriptor types of the file. *)
Theorem device_names_no_string_descriptor :
  Device.manufacturer device_descriptor = 0 /\
  Device.product device_descriptor = 0 /\
  Device.serial_number device_descriptor = 0 /\
  Device.bcd_device device_descriptor = 0x0100 /\
  exists records,
    traverse usb_device_descriptors = Some records /\
    Forall (fun d => Forall (fun i => i = 0) (string_indices d)) records /\
    Forall (fun d => header_descriptor_type d ∈
                       [ u8 DESCRIPTOR_TYPE_DEVICE;
                         u8 DESCRIPTOR_TYPE_CONFIGURATION;
                         u8 DESCRIPTOR_TYPE_INTERFACE_ASSOCIATION;
                         u8 DESCRIPTOR_TYPE_INTERFACE;
                         u8 DESCRIPTOR_TYPE_CDC;
                         u8 DESCRIPTOR_TYPE_ENDPOINT ]) records.
Proof.
  do 4 (split; [reflexivity|]).
  eexists. split; [apply traverse_usb_device_descriptors|].
  split.
  - repeat (apply Forall_cons; split; [repeat constructor|]). constructor.
  - repeat (apply Forall_cons; split; [cbn [header_descriptor_type]; set_solver|]).
    constructor.
Qed.

(** C10: the four CDC records carry the one descriptor type
    DESCRIPTOR_TYPE_CDC and the sub types 0 (header), 1 (call management),
    2 (ACM) and 6 (union); the sub types are pairwise distinct, so each sub
    type selects exactly one record of the table. *)
Theorem cdc_records_told_apart_by_sub_type :
  CdcHeader.descriptor_type cdc_header_descriptor = u8 DESCRIPTOR_TYPE_CDC /\
  CdcCallManagement.descriptor_type cdc_call_management_0_descriptor = u8 DESCRIPTOR_TYPE_CDC /\
  CdcAcm.descriptor_type cdc_acm_descriptor = u8 DESCRIPTOR_TYPE_CDC /\
  CdcUnion.descriptor_type cdc_union_0_descriptor = u8 DESCRIPTOR_TYPE_CDC /\
  CdcHeader.sub_type cdc_header_descriptor = 0 /\
  CdcCallManagement.sub_type cdc_call_management_0_descriptor = 1 /\
  CdcAcm.sub_type cdc_acm_descriptor = 2 /\
  CdcUnion.sub_type cdc_union_0_descriptor = 6 /\
  exists records,
    traverse usb_device_descriptors = Some records /\
    cdc_tags records =
      [ (u8 DESCRIPTOR_TYPE_CDC, 0); (u8 DESCRIPTOR_TYPE_CDC, 2);
        (u8 DESCRIPTOR_TYPE_CDC, 6); (u8 DESCRIPTOR_TYPE_CDC, 1) ] /\
    NoDup (map snd (cdc_tags records)) /\
    NoDup (cdc_tags records) /\
    cdc_with_sub_type 0 records = [cdc_header cdc_header_descriptor] /\
    cdc_with_sub_type 1 records = [cdc_call_management cdc_call_management_0_descriptor] /\
    cdc_with_sub_type 2 records = [cdc_acm cdc_acm_descriptor] /\
    cdc_with_sub_type 6 records = [cdc_union cdc_union_0_descriptor].
Proof.
  do 8 (split; [reflexivity|]).
  eexists. split; [apply traverse_usb_device_descriptors|].
  split; [reflexivity|].
  assert (Hsub : NoDup [0; 2; 6; 1]).
  { repeat (apply NoDup_cons; split; [set_unfold; lia|]). apply NoDup_nil_2. }
  split; [exact Hsub|]. split; [|repeat split].
  apply (NoDup_fmap_1 snd). exact Hsub.
Qed.

(** ** Further properties of the table *)



(** Chunks that each start with their own length, at least two bytes long,
    are found again in their concatenation. *)
Lemma split_records_concat (chunks : list (list Z)) :
  Forall (fun c => head c = Some (Z.of_nat (List.length c)) /\ (2 <= List.length c)%nat) chunks ->
  forall fuel, (List.length chunks <= fuel)%nat ->
    split_records fuel (concat chunks) = Some chunks.
Proof.
  induction 1 as [|c chunks [Hhead Hlen] _ IH]; intros fuel Hfuel.
  - destruct fuel; reflexivity.
  - destruct c as [|len c]; [simpl in Hlen; lia|].
    destruct fuel as [|fuel]; [simpl in Hfuel; lia|].
    simpl in Hhead. injection Hhead as Hhead.
    change (concat ((len :: c) :: chunks)) with ((len :: c) ++ concat chunks).
    assert (Hn : Z.to_nat len = List.length (len :: c)) by (rewrite Hhead at 1; apply Nat2Z.id).
    change (split_records (S fuel) ((len :: c) ++ concat chunks))
      with (if decide (2 <= Z.to_nat len <= List.length ((len :: c) ++ concat chunks))%nat
            then cons (take (Z.to_nat len) ((len :: c) ++ concat chunks))
                   <$> split_records fuel (drop (Z.to_nat len) ((len :: c) ++ concat chunks))
            else None).
    rewrite Hn. rewrite decide_True by (rewrite length_app; lia).
    rewrite take_app_length, drop_app_length.
    rewrite IH by (simpl in Hfuel; lia). reflexivity.
Qed.

Lemma length_concat_ge (chunks : list (list Z)) :
  Forall (fun c => (2 <= List.length c)%nat) chunks ->
  (List.length chunks <= List.length (concat chunks))%nat.
Proof.
  induction 1 as [|c chunks Hc _ IH]; simpl; [lia|].
  rewrite length_app. lia.
Qed.


(** An object whose length member is initialised with [sizeof], whatever
    its other members hold, starts with the number of bytes it occupies;
    every struct of the file has at least the two header bytes. *)
Lemma sizeof_initialised_head d :
  header_length d = u8 (sizeof (decl_of d)) ->
  head (encode d) = Some (Z.of_nat (List.length (encode d)))
  /\ (2 <= List.length (encode d))%nat.
Proof.
  intros Hlen. split.
  - destruct d as [x|x|x|x|x|x|x|x|x]; destruct x; simpl in Hlen; subst; reflexivity.
  - destruct d; simpl; lia.
Qed.

(** X1: the counts the device and the configuration descriptor declare are
    those of the table: the device descriptor comes first and declares one
    configuration, the table holds one configuration descriptor; that one
    declares two interfaces, and the interface descriptors of the table are
    numbered 0 and 1, one after the other. *)
Theorem declared_counts_match_table :
  exists records,
    traverse usb_device_descriptors = Some records /\
    head records = Some (device device_descriptor) /\
    configurations records = [configuration_descriptor] /\
    Device.num_configurations device_descriptor
      = Z.of_nat (List.length (configurations records)) /\
    Configuration.num_interfaces configuration_descriptor
      = Z.of_nat (List.length (interface_numbers records)) /\
    interface_numbers records
      = seqZ 0 (Configuration.num_interfaces configuration_descriptor) /\
    NoDup (interface_numbers records).
Proof.
  eexists. split; [apply traverse_usb_device_descriptors|].
  do 5 (split; [reflexivity|]).
  change (NoDup (seqZ 0 2)). apply NoDup_seqZ.
Qed.

(** X2: the interface association groups exactly the interfaces of the
    table: [interface_count] interfaces from [first_interface] on are the
    interface numbers of the table's interface descriptors, as many as the
    configuration declares; the association stands right before the
    descriptor of its first interface, under no interface itself. *)
Theorem interface_association_covers_interfaces :
  exists records,
    traverse usb_device_descriptors = Some records /\
    interface_numbers records
      = seqZ (InterfaceAssociation.first_interface inferface_association_0_descriptor)
             (InterfaceAssociation.interface_count inferface_association_0_descriptor) /\
    InterfaceAssociation.interface_count inferface_association_0_descriptor
      = Configuration.num_interfaces configuration_descriptor /\
    with_interface None records !! 2%nat
      = Some (None, interface_association inferface_association_0_descriptor) /\
    records !! 3%nat = Some (interface inferface_0_descriptor) /\
    Interface.interface_number inferface_0_descriptor
      = InterfaceAssociation.first_interface inferface_association_0_descriptor.
Proof.
  eexists. split; [apply traverse_usb_device_descriptors|].
  repeat split.
Qed.


(** X4: the configuration response can be taken apart again by the length
    bytes alone: cutting the stream at the lengths the records themselves
    give returns the eleven records, none left over, and the third and
    fourth byte of the stream, the total length on the wire, give the
    length of the stream. *)
Theorem configuration_response_splits_by_length :
  exists records stream,
    traverse usb_device_descriptors = Some records /\
    stream = serialize (configuration_group records) /\
    split_records (List.length stream) stream
      = Some (map encode (configuration_group records)) /\
    List.length (map encode (configuration_group records)) = 11%nat /\
    exists lo hi,
      stream !! 2%nat = Some lo /\ stream !! 3%nat = Some hi /\
      le16 lo hi = Z.of_nat (List.length stream).
Proof.
  eexists. eexists. split; [apply traverse_usb_device_descriptors|].
  split; [reflexivity|].
  assert (Hwf : Forall (fun c => head c = Some (Z.of_nat (List.length c))
                                 /\ (2 <= List.length c)%nat)
                  (map encode
                     (configuration_group
                        [ device device_descriptor;
                          configuration configuration_descriptor;
                          interface_association inferface_association_0_descriptor;
                          interface inferface_0_descriptor;
                          cdc_header cdc_header_descriptor;
                          cdc_acm cdc_acm_descriptor;
                          cdc_union cdc_union_0_descriptor;
                          cdc_call_management cdc_call_management_0_descriptor;
                          endpoint endpoint_1_descriptor;
                          interface inferface_1_descriptor;
                          endpoint endpoint_2_descriptor;
                          endpoint endpoint_3_descriptor ]))).
  { repeat (apply Forall_cons; split; [split; [reflexivity | simpl; lia]|]).
    apply Forall_nil. exact I. }
  split; [|split; [reflexivity|]].
  - apply split_records_concat; [exact Hwf|].
    apply length_concat_ge. eapply Forall_impl; [exact Hwf|].
    intros c [_ Hc]. exact Hc.
  - exists 75, 0. repeat split.
Qed.

(** X5: the class-specific records stand under the control interface: the
    last interface descriptor before each of the four CDC records is that
    of interface 0, the interface of class USB_CLASS_CDC_CONTROL that the
    union names as its master; and no endpoint descriptor comes before the
    first interface descriptor. *)
Theorem class_specific_records_under_control_interface :
  exists records,
    traverse usb_device_descriptors = Some records /\
    Forall (fun od => match od.2 with
                      | cdc_header _ | cdc_acm _ | cdc_union _ | cdc_call_management _ =>
                          od.1 = Some inferface_0_descriptor
                      | endpoint _ => is_Some od.1
                      | _ => True
                      end) (with_interface None records) /\
    List.length (cdc_tags records) = 4%nat /\
    Interface.interface_number inferface_0_descriptor
      = CdcUnion.master_interface cdc_union_0_descriptor /\
    Interface.interface_class inferface_0_descriptor = u8 USB_CLASS_CDC_CONTROL.
Proof.
  eexists. split; [apply traverse_usb_device_descriptors|].
  split; [|repeat split].
  cbn [with_interface].
  repeat (apply Forall_cons; split; [cbn [fst snd]; eauto|]).
  apply Forall_nil. exact I.
Qed.

(** X6: the idiom [.length = sizeof(object)] is what makes a stream of
    records readable: whatever the other members of the records hold, a
    stream of records initialised that way is cut by the length bytes into
    exactly those records. *)
Theorem sizeof_initialised_records_split (l : list usb_descriptor_t) :
  Forall (fun d => header_length d = u8 (sizeof (decl_of d))) l ->
  split_records (List.length (serialize l)) (serialize l) = Some (map encode l).
Proof.
  intros Hall.
  assert (Hwf : Forall (fun c => head c = Some (Z.of_nat (List.length c))
                                 /\ (2 <= List.length c)%nat) (map encode l)).
  { apply Forall_fmap. eapply Forall_impl; [exact Hall|].
    intros d Hd. apply sizeof_initialised_head, Hd. }
  apply split_records_concat; [exact Hwf|].
  apply length_concat_ge. eapply Forall_impl; [exact Hwf|].
  intros c [_ Hc]. exact Hc.
Qed.

End descriptors.

(** ** The table on concrete macro values *)

(** C3 on the bulk OUT endpoint: the entry is in the array, and its seven
    bytes are what its length member says. *)
Lemma length_member_is_encoded_size_witness :
  Some (endpoint (@endpoint_2_descriptor usb20_macros))
    ∈ @usb_device_descriptors usb20_macros /\
  encode (endpoint (@endpoint_2_descriptor usb20_macros)) = [7; 5; 2; 2; 0; 2; 128] /\
  Z.of_nat (List.length (encode (endpoint (@endpoint_2_descriptor usb20_macros))))
  = header_length (endpoint (@endpoint_2_descriptor usb20_macros)).
Proof.
  assert (Hin : Some (endpoint (@endpoint_2_descriptor usb20_macros))
                  ∈ @usb_device_descriptors usb20_macros).
  { apply list_elem_of_lookup. exists 10%nat. reflexivity. }
  split; [exact Hin|]. split; [reflexivity|].
  apply (@length_member_is_encoded_size usb20_macros _ Hin).
Defined.


(** X6 on the whole table, device descriptor included: 93 bytes, twelve
    records. *)
Lemma sizeof_initialised_records_split_witness :
  let l := default [] (traverse (@usb_device_descriptors usb20_macros)) in
  Forall (fun d => header_length d = u8 (sizeof (decl_of d))) l /\
  List.length (serialize l) = 93%nat /\
  split_records 93 (serialize l) = Some (map encode l).
Proof.
  assert (Hall : Forall (fun d => header_length d = u8 (sizeof (decl_of d)))
                   (default [] (traverse (@usb_device_descriptors usb20_macros)))).
  { repeat (apply Forall_cons; split; [reflexivity|]). apply Forall_nil. exact I. }
  split; [exact Hall|]. split; [reflexivity|].
  exact (sizeof_initialised_records_split _ Hall).
Defined.

(** The GET_DESCRIPTOR(CONFIGURATION) response on those values, byte by
    byte. *)
Example configuration_response_usb20 :
  serialize (configuration_group
               (default [] (traverse (@usb_device_descriptors usb20_macros))))
  = [ 9; 2; 75; 0; 2; 1; 0; 128; 250;
      8; 11; 0; 2; 2; 2; 1; 0;
      9; 4; 0; 0; 1; 2; 2; 0; 0;
      5; 36; 0; 1; 16;
      4; 36; 2; 6;
      5; 36; 6; 0; 1;
      5; 36; 1; 0; 1;
      7; 5; 129; 3; 16; 0; 64;
      9; 4; 1; 0; 2; 10; 0; 0; 0;
      7; 5; 2; 2; 0; 2; 128;
      7; 5; 131; 2; 0; 2; 128 ].
Proof. reflexivity. Qed.
